(** * Keras model factory of cnn_models.py: a shallow embedding

    The module wires layers of tensorflow.keras into five model graphs and
    selects one of them by name.  The embedding keeps what the Python code
    computes itself (the integer and float arithmetic of the hyperparameters,
    the order of the layer calls, the dispatch on the name, the message
    printed for an unknown name) and models the framework by the part of it
    that graph construction exercises: symbolic tensors carrying a static
    shape, one graph node per layer call, and the shape rules under which a
    layer call is accepted or rejected with a ValueError. *)

From Stdlib Require Import ZArith List String Ascii Bool Lia.
From Stdlib Require Import Floats Uint63.
Import ListNotations.

Local Open Scope string_scope.
Local Open Scope list_scope.
Local Open Scope Z_scope.

(** ** Python values and control *)

Inductive exn : Type :=
| ValueError (msg : string)
| ZeroDivisionError
| OverflowError
| NotModelled.

Inductive result (A : Type) : Type :=
| Return (a : A)
| Raise (e : exn).

Arguments Return {A} a.
Arguments Raise {A} e.

Module Py.

(** [a // b] on Python ints: floor division, which is [Z.div]. *)
Definition floordiv (a b : Z) : result Z :=
  if b =? 0 then Raise ZeroDivisionError else Return (a / b).

(** Python ints as binary64 floats.  Below 2^53 the conversion is exact and
    [int / int] is the IEEE quotient of the two converted operands; larger
    operands are left out of the model. *)
Definition exact_float_range (a : Z) : bool := Z.abs a <? 2 ^ 53.

Definition float_of_int (a : Z) : float :=
  if a <? 0
  then PrimFloat.opp (PrimFloat.of_uint63 (Uint63.of_Z (- a)))
  else PrimFloat.of_uint63 (Uint63.of_Z a).

(** [a / b] on Python ints: true division, a float. *)
Definition truediv (a b : Z) : result float :=
  if b =? 0 then Raise ZeroDivisionError
  else if exact_float_range a && exact_float_range b
       then Return (PrimFloat.div (float_of_int a) (float_of_int b))
       else Raise NotModelled.

(** [int(x)] on a float: truncation towards zero. *)
Definition int_of_float (x : float) : result Z :=
  match Prim2SF x with
  | S754_zero _ => Return 0
  | S754_finite s m e =>
      let magnitude :=
        match e with
        | Z0 => Zpos m
        | Zpos _ => Zpos m * 2 ^ e
        | Zneg p => Zpos m / 2 ^ Zpos p
        end in
      Return (if s then - magnitude else magnitude)
  | S754_infinity _ => Raise OverflowError
  | S754_nan => Raise (ValueError "cannot convert float NaN to integer")
  end.

Definition newline : string := String (ascii_of_nat 10) EmptyString.

(** [print(s)] appends the text and a line break to standard output. *)
Definition print (s : string) (stdout : string) : string :=
  (stdout ++ s ++ newline)%string.

End Py.

(** ** Layers and static shapes *)

Inductive activation : Type := linear | tanh | relu | softmax.

Inductive padding : Type := valid | same.

(** A shape leaves the batch axis out: [Input(shape=(256, 1))] is [[256; 1]]. *)
Definition shape : Type := list Z.

Inductive layer : Type :=
| InputLayer (input_shape : shape)
| Conv1D (filters kernel_size : Z) (act : activation) (pad : padding)
| MaxPooling1D (pool_size : Z)
| Flatten
| Dense (units : Z) (act : activation)
| Reshape (target_shape : shape)
| Concatenate (axis : Z)
| CoordinateChannel1D.

Definition num_elements (s : shape) : Z := fold_right Z.mul 1 s.

(** Length of a convolved or pooled axis, as the framework computes it
    (dilation 1). *)
Definition conv_output_length (input_length filter_size : Z) (pad : padding)
    (stride : Z) : Z :=
  let output_length :=
    match pad with
    | same => input_length
    | valid => input_length - filter_size + 1
    end in
  (output_length + stride - 1) / stride.

Fixpoint shape_eqb (s1 s2 : shape) : bool :=
  match s1, s2 with
  | [], [] => true
  | d1 :: r1, d2 :: r2 => (d1 =? d2) && shape_eqb r1 r2
  | _, _ => false
  end.

(** The axis of a batch-less shape named by a Keras axis argument: axis 0 is
    the batch axis, negative axes count from the end. *)
Definition normalize_axis (rank : nat) (axis : Z) : option nat :=
  let r := Z.of_nat rank in
  if (1 <=? axis) && (axis <=? r) then Some (Z.to_nat (axis - 1))
  else if (axis <? 0) && (- r <=? axis) then Some (Z.to_nat (r + axis))
  else None.

Fixpoint set_dim (s : shape) (i : nat) (d : Z) : shape :=
  match s, i with
  | [], _ => []
  | _ :: rest, O => d :: rest
  | x :: rest, S j => x :: set_dim rest j d
  end.

Definition replace_last (s : shape) (d : Z) : shape :=
  removelast s ++ [d].

(** Shapes to concatenate must agree off the concatenation axis. *)
Definition concat_compatible (i : nat) (s1 s2 : shape) : bool :=
  shape_eqb (set_dim s1 i 0) (set_dim s2 i 0).

(** Modelled from the spec: the layer class [CoordinateChannel1D] of the
    repository's module [coord], which the source imports inside
    [LucasCoordConv] and which is not part of the sources at hand.  The spec
    describes it as prepending one coordinate channel to the input before the
    first convolution: the steps are kept and the channel axis grows by one. *)
Definition coordinate_channel_shape (s : shape) : result shape :=
  match s with
  | [steps; channels] => Return [steps; channels + 1]
  | _ => Raise (ValueError "CoordinateChannel1D: expected a (steps, channels) input")
  end.

Definition compute_output_shape (l : layer) (ins : list shape) : result shape :=
  match l, ins with
  | InputLayer s, [] =>
      if forallb (fun d => 0 <? d) s then Return s
      else Raise (ValueError "Input: dimensions must be positive")
  | Conv1D filters kernel_size _ pad, [[steps; _]] =>
      let out := conv_output_length steps kernel_size pad 1 in
      if (0 <? filters) && (0 <? kernel_size) && (0 <? out)
      then Return [out; filters]
      else Raise (ValueError "Conv1D: output dimension is not positive")
  | MaxPooling1D pool_size, [[steps; channels]] =>
      if 0 <? pool_size then
        let out := conv_output_length steps pool_size valid pool_size in
        if 0 <? out then Return [out; channels]
        else Raise (ValueError "MaxPooling1D: output dimension is not positive")
      else Raise (ValueError "MaxPooling1D: pool_size must be positive")
  | Flatten, [s] => Return [num_elements s]
  | Dense units _, [d :: s] =>
      if 0 <? units then Return (replace_last (d :: s) units)
      else Raise (ValueError "Dense: units must be positive")
  | Reshape target, [s] =>
      if forallb (fun d => 0 <? d) target
         && (num_elements s =? num_elements target)
      then Return target
      else Raise (ValueError "Reshape: total size of new array must be unchanged")
  | Concatenate axis, s1 :: rest =>
      match normalize_axis (List.length s1) axis with
      | Some i =>
          if (Nat.ltb i (List.length s1)) && forallb (concat_compatible i s1) rest
          then Return (set_dim s1 i
                         (fold_right Z.add 0
                            (map (fun s => nth i s 0) (s1 :: rest))))
          else Raise (ValueError "Concatenate: inputs must have matching shapes except for the concatenation axis")
      | None => Raise (ValueError "Concatenate: axis out of range")
      end
  | CoordinateChannel1D, [s] => coordinate_channel_shape s
  | _, _ => Raise (ValueError "layer is incompatible with its input")
  end.

(** ** Graph construction

    A layer call adds one node to the graph under construction and hands
    back a symbolic tensor that remembers the node it comes from.  A node
    names the nodes its inputs come from, so a tensor used twice (the input
    of [LucasResNet]) is one node with two consumers. *)

Record node : Type := mkNode {
  node_layer : layer;
  inbound : list nat;
  output_shape : shape
}.

Record tensor : Type := KerasTensor {
  tensor_shape : shape;
  producer : nat
}.

Definition graph : Type := list node.

Record KerasModel : Type := Model {
  inputs : tensor;
  outputs : tensor;
  layers : graph
}.

(** Construction threads the graph and may raise. *)
Definition K (A : Type) : Type := graph -> result (A * graph).

Definition ret {A : Type} (a : A) : K A := fun g => Return (a, g).

Definition bind {A B : Type} (k : K A) (f : A -> K B) : K B :=
  fun g =>
    match k g with
    | Return (a, g') => f a g'
    | Raise e => Raise e
    end.

Notation "x <- k ;; f" := (bind k (fun x => f))
  (at level 61, k at next level, right associativity).

Definition lift {A : Type} (r : result A) : K A :=
  fun g =>
    match r with
    | Return a => Return (a, g)
    | Raise e => Raise e
    end.

(** [l(x1, ..., xn)]: the layer [l] called on tensors. *)
Definition call (l : layer) (xs : list tensor) : K tensor :=
  fun g =>
    match compute_output_shape l (map tensor_shape xs) with
    | Return s =>
        Return (KerasTensor s (List.length g),
                g ++ [mkNode l (map producer xs) s])
    | Raise e => Raise e
    end.

Definition Input (s : shape) : K tensor := call (InputLayer s) [].

(** [Model(inputs=inp, outputs=x)] closes the graph built so far. *)
Definition build_model (inp x : tensor) : K KerasModel :=
  fun g => Return (Model inp x g, g).

(** A model function starts from an empty graph on every call. *)
Definition run {A : Type} (k : K A) : result A :=
  match k [] with
  | Return (a, _) => Return a
  | Raise e => Raise e
  end.

(** ** The five architectures *)

Definition HuEtAl : result KerasModel :=
  run (
    let seq_length := 256 in
    kernel_size <- lift (Py.floordiv seq_length 9) ;;
    quotient <- lift (Py.truediv (seq_length - kernel_size + 1) 35) ;;
    pool_size <- lift (Py.int_of_float quotient) ;;
    inp <- Input [seq_length; 1] ;;
    x <- call (Conv1D 20 kernel_size tanh valid) [inp] ;;
    x <- call (MaxPooling1D pool_size) [x] ;;
    x <- call Flatten [x] ;;
    x <- call (Dense 100 tanh) [x] ;;
    x <- call (Dense 4 softmax) [x] ;;
    build_model inp x).

(** The three assignments that open [HuEtAl], on their own. *)
Definition HuEtAl_sizes : result (Z * Z) :=
  match Py.floordiv 256 9 with
  | Return kernel_size =>
      match Py.truediv (256 - kernel_size + 1) 35 with
      | Return quotient =>
          match Py.int_of_float quotient with
          | Return pool_size => Return (kernel_size, pool_size)
          | Raise e => Raise e
          end
      | Raise e => Raise e
      end
  | Raise e => Raise e
  end.

Definition LiuEtAl : result KerasModel :=
  run (
    let seq_length := 256 in
    let kernel_size := 3 in
    inp <- Input [seq_length; 1] ;;
    x <- call (Conv1D 32 kernel_size relu valid) [inp] ;;
    x <- call (MaxPooling1D 2) [x] ;;
    x <- call (Conv1D 32 kernel_size relu valid) [x] ;;
    x <- call (MaxPooling1D 2) [x] ;;
    x <- call (Conv1D 64 kernel_size relu valid) [x] ;;
    x <- call (MaxPooling1D 2) [x] ;;
    x <- call (Conv1D 64 kernel_size relu valid) [x] ;;
    x <- call (MaxPooling1D 2) [x] ;;
    x <- call Flatten [x] ;;
    x <- call (Dense 4 softmax) [x] ;;
    build_model inp x).

Definition LucasCNN : result KerasModel :=
  run (
    let seq_length := 256 in
    let kernel_size := 3 in
    let activation := relu in
    let padding := valid in
    inp <- Input [seq_length; 1] ;;
    x <- call (Conv1D 32 kernel_size activation padding) [inp] ;;
    x <- call (MaxPooling1D 2) [x] ;;
    x <- call (Conv1D 32 kernel_size activation padding) [x] ;;
    x <- call (MaxPooling1D 2) [x] ;;
    x <- call (Conv1D 64 kernel_size activation padding) [x] ;;
    x <- call (MaxPooling1D 2) [x] ;;
    x <- call (Conv1D 64 kernel_size activation padding) [x] ;;
    x <- call (MaxPooling1D 2) [x] ;;
    x <- call Flatten [x] ;;
    x <- call (Dense 120 activation) [x] ;;
    x <- call (Dense 160 activation) [x] ;;
    x <- call (Dense 4 softmax) [x] ;;
    build_model inp x).

Definition LucasResNet : result KerasModel :=
  run (
    let seq_length := 256 in
    let kernel_size := 3 in
    let activation := relu in
    let padding := same in
    inp <- Input [seq_length; 1] ;;
    x <- call (Conv1D 32 kernel_size activation padding) [inp] ;;
    x <- call (MaxPooling1D 2) [x] ;;
    x <- call (Conv1D 32 kernel_size activation padding) [x] ;;
    x <- call (MaxPooling1D 2) [x] ;;
    x <- call (Conv1D 64 kernel_size activation padding) [x] ;;
    x <- call (MaxPooling1D 2) [x] ;;
    x <- call (Conv1D 64 kernel_size activation padding) [x] ;;
    x <- call (MaxPooling1D 2) [x] ;;
    inp_res <- call (Reshape [16; 16]) [inp] ;;
    x <- call (Concatenate (-1)) [x; inp_res] ;;
    x <- call Flatten [x] ;;
    x <- call (Dense 150 activation) [x] ;;
    x <- call (Dense 100 activation) [x] ;;
    x <- call (Dense 4 softmax) [x] ;;
    build_model inp x).

Definition LucasCoordConv : result KerasModel :=
  run (
    let seq_length := 256 in
    let kernel_size := 3 in
    let activation := relu in
    let padding := valid in
    inp <- Input [seq_length; 1] ;;
    x <- call CoordinateChannel1D [inp] ;;
    x <- call (Conv1D 32 kernel_size activation padding) [x] ;;
    x <- call (MaxPooling1D 2) [x] ;;
    x <- call (Conv1D 64 kernel_size activation padding) [x] ;;
    x <- call (MaxPooling1D 2) [x] ;;
    x <- call (Conv1D 64 kernel_size activation padding) [x] ;;
    x <- call (MaxPooling1D 2) [x] ;;
    x <- call (Conv1D 128 kernel_size activation padding) [x] ;;
    x <- call (MaxPooling1D 2) [x] ;;
    x <- call Flatten [x] ;;
    x <- call (Dense 256 activation) [x] ;;
    x <- call (Dense 128 activation) [x] ;;
    x <- call (Dense 4 softmax) [x] ;;
    build_model inp x).

(** ** The factory *)

(** What a Python function hands back: a model object or [None]. *)
Definition returns (r : result KerasModel) : result (option KerasModel) :=
  match r with
  | Return m => Return (Some m)
  | Raise e => Raise e
  end.

(** ["Error: Model {0} not implemented.".format(model_name)] *)
Definition not_implemented_message (model_name : string) : string :=
  ("Error: Model " ++ model_name ++ " not implemented.")%string.

(** [getKerasModel] takes the name and the standard output so far and gives
    the outcome of the call and the standard output after it. *)
Definition getKerasModel (model_name : string) (stdout : string)
    : result (option KerasModel) * string :=
  if (model_name =? "LucasCNN")%string then (returns LucasCNN, stdout)
  else if (model_name =? "HuEtAl")%string then (returns HuEtAl, stdout)
  else if (model_name =? "LiuEtAl")%string then (returns LiuEtAl, stdout)
  else if (model_name =? "LucasResNet")%string then (returns LucasResNet, stdout)
  else if (model_name =? "LucasCoordConv")%string
       then (returns LucasCoordConv, stdout)
  else (Return None, Py.print (not_implemented_message model_name) stdout).

(** The names the factory knows, in the order it tests them. *)
Definition model_names : list string :=
  ["LucasCNN"; "HuEtAl"; "LiuEtAl"; "LucasResNet"; "LucasCoordConv"].

(** Whether the factory knows a name. *)
Definition recognised (model_name : string) : bool :=
  existsb (String.eqb model_name) model_names.

(** ** Reading a built model *)

Definition indexed (g : graph) : list (nat * node) :=
  combine (seq 0 (List.length g)) g.

Definition node_at (m : KerasModel) (i : nat) : option node :=
  nth_error (layers m) i.

Definition layer_at (m : KerasModel) (i : nat) : option layer :=
  option_map node_layer (node_at m i).

(** The layer whose call produced a tensor of the model. *)
Definition produced_by (m : KerasModel) (t : tensor) : option layer :=
  layer_at m (producer t).

Definition input_layers (m : KerasModel) : list shape :=
  flat_map (fun n => match node_layer n with
                     | InputLayer s => [s]
                     | _ => []
                     end) (layers m).

(** Convolutions in call order: filters, kernel size, activation, padding. *)
Definition convolutions (m : KerasModel)
    : list (Z * Z * activation * padding) :=
  flat_map (fun n => match node_layer n with
                     | Conv1D f k a p => [(f, k, a, p)]
                     | _ => []
                     end) (layers m).

Definition conv_filters (m : KerasModel) : list Z :=
  map (fun c => match c with (f, _, _, _) => f end) (convolutions m).

Definition conv_kernel_sizes (m : KerasModel) : list Z :=
  map (fun c => match c with (_, k, _, _) => k end) (convolutions m).

Definition conv_activations (m : KerasModel) : list activation :=
  map (fun c => match c with (_, _, a, _) => a end) (convolutions m).

Definition conv_paddings (m : KerasModel) : list padding :=
  map (fun c => match c with (_, _, _, p) => p end) (convolutions m).

Definition pool_sizes (m : KerasModel) : list Z :=
  flat_map (fun n => match node_layer n with
                     | MaxPooling1D p => [p]
                     | _ => []
                     end) (layers m).

(** Output shapes of the pooling layers, in call order. *)
Definition pool_outputs (m : KerasModel) : list shape :=
  flat_map (fun n => match node_layer n with
                     | MaxPooling1D _ => [output_shape n]
                     | _ => []
                     end) (layers m).

(** Dense layers other than the one producing the model output, in call
    order: units and activation. *)
Definition dense_hidden (m : KerasModel) : list (Z * activation) :=
  flat_map (fun e => match e with
                     | (i, n) =>
                         match node_layer n with
                         | Dense u a =>
                             if Nat.eqb i (producer (outputs m)) then []
                             else [(u, a)]
                         | _ => []
                         end
                     end) (indexed (layers m)).

(** Layers outside the convolution, pooling, flatten and dense chain. *)
Definition extra_layers (m : KerasModel) : list layer :=
  filter (fun l => match l with
                   | Reshape _ | Concatenate _ | CoordinateChannel1D => true
                   | _ => false
                   end) (map node_layer (layers m)).

(** Layers of the nodes that consume the output of node [i]. *)
Definition consumers (g : graph) (i : nat) : list layer :=
  map node_layer (filter (fun n => existsb (Nat.eqb i) (inbound n)) g).

(** Every convolution feeds exactly one layer, a pooling of size [p]. *)
Definition conv_then_pool (p : Z) (g : graph) : bool :=
  forallb (fun e => match e with
                    | (i, n) =>
                        match node_layer n with
                        | Conv1D _ _ _ _ =>
                            match consumers g i with
                            | [MaxPooling1D q] => q =? p
                            | _ => false
                            end
                        | _ => true
                        end
                    end) (indexed g).

(** Layers feeding the node that produced the model output. *)
Definition output_fed_by (m : KerasModel) : list (option layer) :=
  match node_at m (producer (outputs m)) with
  | Some n => map (layer_at m) (inbound n)
  | None => []
  end.

(** ** Tensor data under a reshape

    A (steps, channels) tensor is a list of rows; [Reshape] reads the
    elements in row-major order and cuts them into rows of the new width. *)
Section TensorData.

Variable A : Type.

Definition has_shape (steps channels : nat) (x : list (list A)) : Prop :=
  List.length x = steps /\ Forall (fun row => List.length row = channels) x.

Fixpoint rows_of (steps channels : nat) (flat : list A) : list (list A) :=
  match steps with
  | O => []
  | S steps' =>
      firstn channels flat :: rows_of steps' channels (skipn channels flat)
  end.

Definition reshape_data (steps channels : nat) (x : list (list A))
    : list (list A) :=
  rows_of steps channels (List.concat x).

End TensorData.

Arguments has_shape {A} steps channels x.
Arguments rows_of {A} steps channels flat.
Arguments reshape_data {A} steps channels x.

(** ** The graphs the five functions build *)

Definition HuEtAl_graph : graph :=
  [ mkNode (InputLayer [256; 1]) [] [256; 1];
    mkNode (Conv1D 20 28 tanh valid) [0%nat] [229; 20];
    mkNode (MaxPooling1D 6) [1%nat] [38; 20];
    mkNode Flatten [2%nat] [760];
    mkNode (Dense 100 tanh) [3%nat] [100];
    mkNode (Dense 4 softmax) [4%nat] [4] ].

Definition LiuEtAl_graph : graph :=
  [ mkNode (InputLayer [256; 1]) [] [256; 1];
    mkNode (Conv1D 32 3 relu valid) [0%nat] [254; 32];
    mkNode (MaxPooling1D 2) [1%nat] [127; 32];
    mkNode (Conv1D 32 3 relu valid) [2%nat] [125; 32];
    mkNode (MaxPooling1D 2) [3%nat] [62; 32];
    mkNode (Conv1D 64 3 relu valid) [4%nat] [60; 64];
    mkNode (MaxPooling1D 2) [5%nat] [30; 64];
    mkNode (Conv1D 64 3 relu valid) [6%nat] [28; 64];
    mkNode (MaxPooling1D 2) [7%nat] [14; 64];
    mkNode Flatten [8%nat] [896];
    mkNode (Dense 4 softmax) [9%nat] [4] ].

Definition LucasCNN_graph : graph :=
  [ mkNode (InputLayer [256; 1]) [] [256; 1];
    mkNode (Conv1D 32 3 relu valid) [0%nat] [254; 32];
    mkNode (MaxPooling1D 2) [1%nat] [127; 32];
    mkNode (Conv1D 32 3 relu valid) [2%nat] [125; 32];
    mkNode (MaxPooling1D 2) [3%nat] [62; 32];
    mkNode (Conv1D 64 3 relu valid) [4%nat] [60; 64];
    mkNode (MaxPooling1D 2) [5%nat] [30; 64];
    mkNode (Conv1D 64 3 relu valid) [6%nat] [28; 64];
    mkNode (MaxPooling1D 2) [7%nat] [14; 64];
    mkNode Flatten [8%nat] [896];
    mkNode (Dense 120 relu) [9%nat] [120];
    mkNode (Dense 160 relu) [10%nat] [160];
    mkNode (Dense 4 softmax) [11%nat] [4] ].

Definition LucasResNet_graph : graph :=
  [ mkNode (InputLayer [256; 1]) [] [256; 1];
    mkNode (Conv1D 32 3 relu same) [0%nat] [256; 32];
    mkNode (MaxPooling1D 2) [1%nat] [128; 32];
    mkNode (Conv1D 32 3 relu same) [2%nat] [128; 32];
    mkNode (MaxPooling1D 2) [3%nat] [64; 32];
    mkNode (Conv1D 64 3 relu same) [4%nat] [64; 64];
    mkNode (MaxPooling1D 2) [5%nat] [32; 64];
    mkNode (Conv1D 64 3 relu same) [6%nat] [32; 64];
    mkNode (MaxPooling1D 2) [7%nat] [16; 64];
    mkNode (Reshape [16; 16]) [0%nat] [16; 16];
    mkNode (Concatenate (-1)) [8%nat; 9%nat] [16; 80];
    mkNode Flatten [10%nat] [1280];
    mkNode (Dense 150 relu) [11%nat] [150];
    mkNode (Dense 100 relu) [12%nat] [100];
    mkNode (Dense 4 softmax) [13%nat] [4] ].

Definition LucasCoordConv_graph : graph :=
  [ mkNode (InputLayer [256; 1]) [] [256; 1];
    mkNode CoordinateChannel1D [0%nat] [256; 2];
    mkNode (Conv1D 32 3 relu valid) [1%nat] [254; 32];
    mkNode (MaxPooling1D 2) [2%nat] [127; 32];
    mkNode (Conv1D 64 3 relu valid) [3%nat] [125; 64];
    mkNode (MaxPooling1D 2) [4%nat] [62; 64];
    mkNode (Conv1D 64 3 relu valid) [5%nat] [60; 64];
    mkNode (MaxPooling1D 2) [6%nat] [30; 64];
    mkNode (Conv1D 128 3 relu valid) [7%nat] [28; 128];
    mkNode (MaxPooling1D 2) [8%nat] [14; 128];
    mkNode Flatten [9%nat] [1792];
    mkNode (Dense 256 relu) [10%nat] [256];
    mkNode (Dense 128 relu) [11%nat] [128];
    mkNode (Dense 4 softmax) [12%nat] [4] ].

(** A model over a graph: input at node 0, output at the last node. *)
Definition model_over (g : graph) : KerasModel :=
  Model (KerasTensor [256; 1] 0) (KerasTensor [4] (Nat.pred (List.length g))) g.

Definition model_graphs : list graph :=
  [LucasCNN_graph; HuEtAl_graph; LiuEtAl_graph; LucasResNet_graph;
   LucasCoordConv_graph].

(** Case analysis over the five graphs. *)
Ltac each_graph H :=
  unfold model_graphs in H; simpl in H;
  destruct H as [<- | [<- | [<- | [<- | [<- | []]]]]].

(** ** Connectivity of a built graph *)

(** Every node is called on tensors of earlier nodes. *)
Definition topologically_ordered (g : graph) : bool :=
  forallb (fun e => match e with
                    | (i, n) => forallb (fun j => Nat.ltb j i) (inbound n)
                    end) (indexed g).

Definition no_inbound (n : node) : bool :=
  match inbound n with
  | [] => true
  | _ :: _ => false
  end.

Definition no_consumer (g : graph) (i : nat) : bool :=
  match consumers g i with
  | [] => true
  | _ :: _ => false
  end.

(** The node behind the model input is the only one called on nothing. *)
Definition single_source (m : KerasModel) : bool :=
  forallb (fun e => match e with
                    | (i, n) =>
                        Bool.eqb (no_inbound n)
                                 (Nat.eqb i (producer (inputs m)))
                    end) (indexed (layers m)).

(** The node behind the model output is the only one nothing is called on. *)
Definition single_sink (m : KerasModel) : bool :=
  forallb (fun e => match e with
                    | (i, _) =>
                        Bool.eqb (no_consumer (layers m) i)
                                 (Nat.eqb i (producer (outputs m)))
                    end) (indexed (layers m)).

Definition connected (m : KerasModel) : bool :=
  topologically_ordered (layers m) && single_source m && single_sink m.

(** [path g i k]: the output of node [i] flows into node [k]. *)
Inductive path (g : graph) : nat -> nat -> Prop :=
| path_refl (i : nat) : (i < List.length g)%nat -> path g i i
| path_step (i j k : nat) (n : node) :
    path g i j -> nth_error g k = Some n -> In j (inbound n) -> path g i k.

(** Whether a call of the factory handed back a model. *)
Definition returned_model (r : result (option KerasModel)) : bool :=
  match r with
  | Return (Some _) => true
  | _ => false
  end.

(** The integers [start], [start + 1], ..., [count] of them. *)
Fixpoint Z_range (start : Z) (count : nat) : list Z :=
  match count with
  | O => []
  | S count' => start :: Z_range (start + 1) count'
  end.

(** ** Building the graphs *)

Lemma HuEtAl_builds : HuEtAl = Return (model_over HuEtAl_graph).
Proof. vm_compute. reflexivity. Qed.

Lemma LiuEtAl_builds : LiuEtAl = Return (model_over LiuEtAl_graph).
Proof. vm_compute. reflexivity. Qed.

Lemma LucasCNN_builds : LucasCNN = Return (model_over LucasCNN_graph).
Proof. vm_compute. reflexivity. Qed.

Lemma LucasResNet_builds : LucasResNet = Return (model_over LucasResNet_graph).
Proof. vm_compute. reflexivity. Qed.

Lemma LucasCoordConv_builds :
  LucasCoordConv = Return (model_over LucasCoordConv_graph).
Proof. vm_compute. reflexivity. Qed.

(** ** The factory on known and unknown names *)

Lemma getKerasModel_known (model_name : string) (stdout : string) :
  In model_name model_names ->
  exists g, In g model_graphs /\
            getKerasModel model_name stdout
            = (Return (Some (model_over g)), stdout).
Proof.
  unfold model_names, model_graphs; simpl.
  intros [<- | [<- | [<- | [<- | [<- | []]]]]];
    unfold getKerasModel;
    cbn -[LucasCNN HuEtAl LiuEtAl LucasResNet LucasCoordConv];
    rewrite ?LucasCNN_builds, ?HuEtAl_builds, ?LiuEtAl_builds,
            ?LucasResNet_builds, ?LucasCoordConv_builds;
    eexists; (split; [ | reflexivity]); tauto.
Qed.

Lemma getKerasModel_unknown (model_name : string) (stdout : string) :
  ~ In model_name model_names ->
  getKerasModel model_name stdout
  = (Return None, Py.print (not_implemented_message model_name) stdout).
Proof.
  unfold model_names; simpl; intros H.
  unfold getKerasModel.
  repeat match goal with
         | |- context [String.eqb ?a ?b] =>
             destruct (String.eqb_spec a b) as [-> | _];
             [exfalso; apply H; tauto | ]
         end.
  reflexivity.
Qed.

(** C1: for each of the five recognised names, getKerasModel returns a graph
    whose single input tensor has shape (256, 1) and whose output tensor has
    shape (4,), the output being produced by a 4-unit softmax dense layer. *)
Theorem getKerasModel_input_output_shapes
    (model_name : string) (stdout : string) :
  In model_name model_names ->
  exists m,
    getKerasModel model_name stdout = (Return (Some m), stdout) /\
    tensor_shape (inputs m) = [256; 1] /\
    produced_by m (inputs m) = Some (InputLayer [256; 1]) /\
    input_layers m = [[256; 1]] /\
    tensor_shape (outputs m) = [4] /\
    option_map output_shape (node_at m (producer (outputs m))) = Some [4] /\
    produced_by m (outputs m) = Some (Dense 4 softmax).
Proof.
  intros Hin.
  destruct (getKerasModel_known model_name stdout Hin) as (g & Hg & ->).
  exists (model_over g); split; [reflexivity | ].
  each_graph Hg; repeat split; reflexivity.
Qed.

Lemma getKerasModel_input_output_shapes_witness :
  In "HuEtAl" model_names /\
  exists m,
    getKerasModel "HuEtAl" "" = (Return (Some m), "") /\
    tensor_shape (inputs m) = [256; 1] /\
    produced_by m (inputs m) = Some (InputLayer [256; 1]) /\
    input_layers m = [[256; 1]] /\
    tensor_shape (outputs m) = [4] /\
    option_map output_shape (node_at m (producer (outputs m))) = Some [4] /\
    produced_by m (outputs m) = Some (Dense 4 softmax).
Proof.
  split.
  - simpl; tauto.
  - apply (getKerasModel_input_output_shapes "HuEtAl" ""); simpl; tauto.
Defined.

(** C2: getKerasModel dispatches by exact name: for each of the five names
    the function of that name builds a graph, and getKerasModel returns that
    very graph and prints nothing. *)
Theorem getKerasModel_dispatch (stdout : string) :
  (exists m, LucasCNN = Return m /\
             getKerasModel "LucasCNN" stdout = (Return (Some m), stdout)) /\
  (exists m, HuEtAl = Return m /\
             getKerasModel "HuEtAl" stdout = (Return (Some m), stdout)) /\
  (exists m, LiuEtAl = Return m /\
             getKerasModel "LiuEtAl" stdout = (Return (Some m), stdout)) /\
  (exists m, LucasResNet = Return m /\
             getKerasModel "LucasResNet" stdout
             = (Return (Some m), stdout)) /\
  (exists m, LucasCoordConv = Return m /\
             getKerasModel "LucasCoordConv" stdout
             = (Return (Some m), stdout)).
Proof.
  unfold getKerasModel;
    cbn -[LucasCNN HuEtAl LiuEtAl LucasResNet LucasCoordConv].
  rewrite LucasCNN_builds, HuEtAl_builds, LiuEtAl_builds, LucasResNet_builds,
          LucasCoordConv_builds.
  repeat split; eexists; split; reflexivity.
Qed.

(** C3: for every string that is not one of the five recognised names,
    getKerasModel prints the error message and returns None; it does not
    raise. *)
Theorem getKerasModel_unknown_name_prints_and_returns_None
    (model_name : string) (stdout : string) :
  ~ In model_name model_names ->
  getKerasModel model_name stdout
  = (Return None,
     (stdout ++ ("Error: Model " ++ model_name ++ " not implemented.")
             ++ Py.newline)%string).
Proof.
  intros H; rewrite (getKerasModel_unknown _ _ H); reflexivity.
Qed.

Lemma getKerasModel_unknown_name_prints_and_returns_None_witness :
  ~ In "VGG16" model_names /\
  getKerasModel "VGG16" "log: "
  = (Return None,
     ("log: Error: Model VGG16 not implemented." ++ Py.newline)%string).
Proof.
  assert (H : ~ In "VGG16" model_names).
  { simpl; intros [H | [H | [H | [H | [H | []]]]]]; discriminate H. }
  split; [exact H | ].
  exact (getKerasModel_unknown_name_prints_and_returns_None "VGG16" "log: " H).
Defined.

(** ** Hyperparameters of HuEtAl *)

(** C4: in HuEtAl, with seq_length = 256, the kernel size is 256 // 9 = 28
    and the pooling size is floor((256 - kernel_size + 1) / 35) = 6: the
    value the code obtains by float division and truncation is the exact
    integer quotient, and both sizes are the ones the layers are built
    with. *)
Theorem HuEtAl_kernel_and_pool_size :
  exists m kernel_size pool_size,
    HuEtAl = Return m /\
    HuEtAl_sizes = Return (kernel_size, pool_size) /\
    conv_kernel_sizes m = [kernel_size] /\
    pool_sizes m = [pool_size] /\
    kernel_size = 256 / 9 /\
    kernel_size = 28 /\
    pool_size = (256 - kernel_size + 1) / 35 /\
    pool_size = 6.
Proof.
  exists (model_over HuEtAl_graph), 28, 6.
  split; [apply HuEtAl_builds | ].
  split; [vm_compute; reflexivity | ].
  repeat split; reflexivity.
Qed.

(** ** Layer tables *)

(** C5: the layer composition of the five architectures: HuEtAl has one
    convolution (20 filters, kernel 28), one pooling layer and one 100-unit
    dense hidden layer; LiuEtAl has four convolutions (32, 32, 64, 64;
    kernel 3), each followed by a pooling of size 2, and no dense hidden
    layer, the flattened tensor going straight into the softmax layer;
    LucasCNN has four convolutions (32, 32, 64, 64; kernel 3; valid padding)
    and dense hidden layers 120 then 160; LucasResNet has four convolutions
    with same padding and dense hidden layers 150 then 100; LucasCoordConv
    has four convolutions (32, 64, 64, 128) and dense hidden layers 256 then
    128. *)
Theorem layer_composition :
  exists hu liu cnn resnet coord,
    (HuEtAl = Return hu /\
     conv_filters hu = [20] /\
     conv_kernel_sizes hu = [28] /\
     List.length (pool_sizes hu) = 1%nat /\
     map fst (dense_hidden hu) = [100] /\
     extra_layers hu = []) /\
    (LiuEtAl = Return liu /\
     conv_filters liu = [32; 32; 64; 64] /\
     conv_kernel_sizes liu = [3; 3; 3; 3] /\
     pool_sizes liu = [2; 2; 2; 2] /\
     conv_then_pool 2 (layers liu) = true /\
     dense_hidden liu = [] /\
     output_fed_by liu = [Some Flatten] /\
     produced_by liu (outputs liu) = Some (Dense 4 softmax) /\
     extra_layers liu = []) /\
    (LucasCNN = Return cnn /\
     conv_filters cnn = [32; 32; 64; 64] /\
     conv_kernel_sizes cnn = [3; 3; 3; 3] /\
     conv_paddings cnn = [valid; valid; valid; valid] /\
     map fst (dense_hidden cnn) = [120; 160] /\
     extra_layers cnn = []) /\
    (LucasResNet = Return resnet /\
     List.length (convolutions resnet) = 4%nat /\
     conv_paddings resnet = [same; same; same; same] /\
     map fst (dense_hidden resnet) = [150; 100] /\
     extra_layers resnet = [Reshape [16; 16]; Concatenate (-1)]) /\
    (LucasCoordConv = Return coord /\
     conv_filters coord = [32; 64; 64; 128] /\
     map fst (dense_hidden coord) = [256; 128] /\
     extra_layers coord = [CoordinateChannel1D] /\
     consumers (layers coord) (producer (inputs coord))
     = [CoordinateChannel1D] /\
     consumers (layers coord) 1 = [Conv1D 32 3 relu valid]).
Proof.
  exists (model_over HuEtAl_graph), (model_over LiuEtAl_graph),
         (model_over LucasCNN_graph), (model_over LucasResNet_graph),
         (model_over LucasCoordConv_graph).
  rewrite HuEtAl_builds, LiuEtAl_builds, LucasCNN_builds,
          LucasResNet_builds, LucasCoordConv_builds.
  repeat split; reflexivity.
Qed.

(** ** Activations *)

(** C10: HuEtAl uses tanh for its convolution and its 100-unit dense layer;
    every convolution and every dense hidden layer of LiuEtAl, LucasCNN,
    LucasResNet and LucasCoordConv uses relu; in all five models the final
    4-unit layer uses softmax. *)
Theorem activation_table :
  exists hu liu cnn resnet coord,
    HuEtAl = Return hu /\
    LiuEtAl = Return liu /\
    LucasCNN = Return cnn /\
    LucasResNet = Return resnet /\
    LucasCoordConv = Return coord /\
    conv_activations hu = [tanh] /\
    dense_hidden hu = [(100, tanh)] /\
    Forall (fun m =>
              Forall (eq relu) (conv_activations m) /\
              Forall (eq relu) (map snd (dense_hidden m)))
           [liu; cnn; resnet; coord] /\
    Forall (fun m => produced_by m (outputs m) = Some (Dense 4 softmax))
           [hu; liu; cnn; resnet; coord].
Proof.
  exists (model_over HuEtAl_graph), (model_over LiuEtAl_graph),
         (model_over LucasCNN_graph), (model_over LucasResNet_graph),
         (model_over LucasCoordConv_graph).
  rewrite HuEtAl_builds, LiuEtAl_builds, LucasCNN_builds,
          LucasResNet_builds, LucasCoordConv_builds.
  repeat split; try reflexivity.
  - repeat constructor.
  - repeat constructor.
Qed.

(** ** Shapes along the residual branch of LucasResNet *)

Lemma conv_same_keeps_length (steps kernel_size : Z) :
  conv_output_length steps kernel_size same 1 = steps.
Proof.
  unfold conv_output_length.
  replace (steps + 1 - 1) with steps by lia.
  apply Z.div_1_r.
Qed.

Lemma pool_two_halves (steps : Z) :
  conv_output_length steps 2 valid 2 = steps / 2.
Proof.
  unfold conv_output_length; f_equal; lia.
Qed.

(** One block of [LucasResNet]: a same-padded convolution keeps the steps and
    the pooling of size 2 halves them. *)
Lemma same_block_halves (steps channels filters : Z) (act : activation) :
  0 < filters -> 2 <= steps ->
  compute_output_shape (Conv1D filters 3 act same) [[steps; channels]]
  = Return [steps; filters] /\
  compute_output_shape (MaxPooling1D 2) [[steps; filters]]
  = Return [steps / 2; filters].
Proof.
  intros Hf Hs; unfold compute_output_shape.
  rewrite conv_same_keeps_length, pool_two_halves.
  assert (Hh : 0 < steps / 2) by (apply Z.div_str_pos; lia).
  apply Z.ltb_lt in Hf, Hh.
  assert (Hp : (0 <? steps) = true) by (apply Z.ltb_lt; lia).
  rewrite Hf, Hh, Hp; simpl; split; reflexivity.
Qed.

(** Concatenation along the last axis of two (steps, channels) tensors is
    accepted exactly when the steps agree. *)
Lemma concatenate_last_axis (a b c d : Z) :
  compute_output_shape (Concatenate (-1)) [[a; b]; [c; d]]
  = (if a =? c then Return [a; b + d]
     else Raise (ValueError "Concatenate: inputs must have matching shapes except for the concatenation axis")).
Proof.
  unfold compute_output_shape, concat_compatible; simpl.
  destruct (a =? c); simpl; [rewrite Z.add_0_r | ]; reflexivity.
Qed.

(** C9: in LucasResNet all four convolutions use same padding and each of
    the four poolings halves the time dimension, so the convolutional stack
    ends with 256 / 2^4 = 16 steps, the first dimension of the reshaped
    (16, 16) input; the Concatenate along the last axis is accepted and
    gives a (16, 64 + 16) = (16, 80) tensor, and the model is built without
    a shape error. *)
Theorem LucasResNet_concatenate_well_formed :
  exists m conv_out reshaped,
    LucasResNet = Return m /\
    (forall steps,
        conv_output_length steps 3 same 1 = steps /\
        conv_output_length steps 2 valid 2 = steps / 2) /\
    conv_paddings m = [same; same; same; same] /\
    pool_sizes m = [2; 2; 2; 2] /\
    pool_outputs m = [[128; 32]; [64; 32]; [32; 64]; conv_out] /\
    node_at m 8 = Some (mkNode (MaxPooling1D 2) [7%nat] conv_out) /\
    conv_out = [256 / 2 ^ 4; 64] /\
    256 / 2 ^ 4 = 16 /\
    node_at m 9 = Some (mkNode (Reshape [16; 16]) [0%nat] reshaped) /\
    reshaped = [16; 16] /\
    nth 0 conv_out 0 = nth 0 reshaped 0 /\
    compute_output_shape (Concatenate (-1)) [conv_out; reshaped]
    = Return [16; 64 + 16] /\
    node_at m 10
    = Some (mkNode (Concatenate (-1)) [8%nat; 9%nat] [16; 80]).
Proof.
  exists (model_over LucasResNet_graph), [16; 64], [16; 16].
  split; [apply LucasResNet_builds | ].
  split.
  { intros steps; split;
      [apply conv_same_keeps_length | apply pool_two_halves]. }
  do 9 (split; [reflexivity | ]).
  split; [rewrite concatenate_last_axis | ]; reflexivity.
Qed.

(** ** The reshape of the raw input keeps every element *)

Section ReshapeFacts.

Variable A : Type.

Lemma rows_of_concat (steps channels : nat) :
  forall flat : list A,
    List.length flat = (steps * channels)%nat ->
    List.concat (rows_of steps channels flat) = flat.
Proof.
  induction steps as [ | steps' IH]; intros flat Hlen; simpl.
  - symmetry; apply length_zero_iff_nil; exact Hlen.
  - rewrite IH.
    + apply firstn_skipn.
    + rewrite length_skipn, Hlen; simpl; lia.
Qed.

Lemma rows_of_has_shape (steps channels : nat) :
  forall flat : list A,
    List.length flat = (steps * channels)%nat ->
    has_shape steps channels (rows_of steps channels flat).
Proof.
  induction steps as [ | steps' IH]; intros flat Hlen; simpl.
  - split; [reflexivity | constructor].
  - assert (Hrest : List.length (skipn channels flat)
                    = (steps' * channels)%nat)
      by (rewrite length_skipn, Hlen; simpl; lia).
    destruct (IH _ Hrest) as [Hn Hrows].
    split; simpl.
    + f_equal; exact Hn.
    + constructor; [ | exact Hrows].
      rewrite length_firstn, Hlen; simpl; lia.
Qed.

Lemma has_shape_length_concat (steps channels : nat) (x : list (list A)) :
  has_shape steps channels x ->
  List.length (List.concat x) = (steps * channels)%nat.
Proof.
  intros [Hn Hrows]; subst steps.
  induction Hrows as [ | row rest Hrow _ IH]; simpl.
  - reflexivity.
  - rewrite length_app, IH, Hrow; reflexivity.
Qed.

(** A reshape to a shape with the same number of elements rearranges the
    rows and nothing else. *)
Lemma reshape_data_exact (steps channels steps' channels' : nat)
    (x : list (list A)) :
  has_shape steps channels x ->
  (steps * channels = steps' * channels')%nat ->
  has_shape steps' channels' (reshape_data steps' channels' x) /\
  List.concat (reshape_data steps' channels' x) = List.concat x.
Proof.
  intros Hx Heq.
  pose proof (has_shape_length_concat _ _ _ Hx) as Hlen.
  rewrite Heq in Hlen.
  unfold reshape_data; split.
  - apply rows_of_has_shape; exact Hlen.
  - apply rows_of_concat; exact Hlen.
Qed.

End ReshapeFacts.

(** C6: in LucasResNet the raw input of 256 time steps is reshaped into a
    16 x 16 tensor; since 256 = 16 * 16 the reshape is accepted and keeps
    every element of the input in order; the reshaped input is then
    concatenated with the output of the convolutional stack. *)
Theorem LucasResNet_reshape_exact (A : Type) (x : list (list A)) :
  has_shape 256 1 x ->
  exists m,
    LucasResNet = Return m /\
    tensor_shape (inputs m) = [256; 1] /\
    node_at m 9
    = Some (mkNode (Reshape [16; 16]) [producer (inputs m)] [16; 16]) /\
    num_elements (tensor_shape (inputs m)) = num_elements [16; 16] /\
    256 = 16 * 16 /\
    has_shape 16 16 (reshape_data 16 16 x) /\
    List.concat (reshape_data 16 16 x) = List.concat x /\
    layer_at m 8 = Some (MaxPooling1D 2) /\
    produced_by m (outputs m) = Some (Dense 4 softmax) /\
    node_at m 10
    = Some (mkNode (Concatenate (-1)) [8%nat; 9%nat] [16; 80]).
Proof.
  intros Hx.
  exists (model_over LucasResNet_graph).
  split; [apply LucasResNet_builds | ].
  destruct (reshape_data_exact A 256 1 16 16 x Hx eq_refl) as [Hs Hc].
  do 4 (split; [reflexivity | ]).
  split; [exact Hs | ].
  split; [exact Hc | ].
  repeat split; reflexivity.
Qed.

Lemma LucasResNet_reshape_exact_witness :
  has_shape 256 1 (map (fun i => [Z.of_nat i]) (seq 0 256)) /\
  exists m,
    LucasResNet = Return m /\
    tensor_shape (inputs m) = [256; 1] /\
    node_at m 9
    = Some (mkNode (Reshape [16; 16]) [producer (inputs m)] [16; 16]) /\
    num_elements (tensor_shape (inputs m)) = num_elements [16; 16] /\
    256 = 16 * 16 /\
    has_shape 16 16
      (reshape_data 16 16 (map (fun i => [Z.of_nat i]) (seq 0 256))) /\
    List.concat (reshape_data 16 16 (map (fun i => [Z.of_nat i]) (seq 0 256)))
    = List.concat (map (fun i => [Z.of_nat i]) (seq 0 256)) /\
    layer_at m 8 = Some (MaxPooling1D 2) /\
    produced_by m (outputs m) = Some (Dense 4 softmax) /\
    node_at m 10
    = Some (mkNode (Concatenate (-1)) [8%nat; 9%nat] [16; 80]).
Proof.
  assert (H : has_shape 256 1 (map (fun i => [Z.of_nat i]) (seq 0 256))).
  { split.
    - rewrite length_map, length_seq; reflexivity.
    - apply Forall_forall; intros row Hrow.
      apply in_map_iff in Hrow; destruct Hrow as (i & <- & _); reflexivity. }
  split; [exact H | ].
  exact (LucasResNet_reshape_exact Z _ H).
Defined.

(** The reshape on concrete data: sixteen rows, the first one holding the
    first sixteen time steps. *)
Example reshape_data_first_row :
  hd [] (reshape_data 16 16 (map (fun i => [Z.of_nat i]) (seq 0 256)))
  = [0; 1; 2; 3; 4; 5; 6; 7; 8; 9; 10; 11; 12; 13; 14; 15].
Proof. vm_compute. reflexivity. Qed.

(** ** Totality of the factory *)

Lemma recognised_In (model_name : string) :
  recognised model_name = true <-> In model_name model_names.
Proof.
  unfold recognised; rewrite existsb_exists; split.
  - intros (n & Hn & He); apply String.eqb_eq in He; subst; exact Hn.
  - intros Hin; exists model_name; split; [exact Hin | apply String.eqb_refl].
Qed.

Lemma not_recognised_In (model_name : string) :
  recognised model_name = false <-> ~ In model_name model_names.
Proof.
  rewrite <- recognised_In; destruct (recognised model_name); split;
    congruence.
Qed.

(** C7: the unrecognised name is the only error condition: each of the five
    model functions returns a graph, and every call of getKerasModel returns
    without raising, with a constructed graph and nothing printed for a
    recognised name, and with None and the printed message otherwise. *)
Theorem unknown_name_is_the_only_error (model_name : string) (stdout : string) :
  (exists m, LucasCNN = Return m) /\
  (exists m, HuEtAl = Return m) /\
  (exists m, LiuEtAl = Return m) /\
  (exists m, LucasResNet = Return m) /\
  (exists m, LucasCoordConv = Return m) /\
  (exists r, fst (getKerasModel model_name stdout) = Return r) /\
  ((recognised model_name = true /\
    exists m, getKerasModel model_name stdout = (Return (Some m), stdout)) \/
   (recognised model_name = false /\
    getKerasModel model_name stdout
    = (Return None, Py.print (not_implemented_message model_name) stdout))).
Proof.
  rewrite LucasCNN_builds, HuEtAl_builds, LiuEtAl_builds, LucasResNet_builds,
          LucasCoordConv_builds.
  do 5 (split; [eexists; reflexivity | ]).
  destruct (recognised model_name) eqn:Hrec.
  - apply recognised_In in Hrec.
    destruct (getKerasModel_known model_name stdout Hrec) as (g & _ & Hg).
    rewrite Hg; split; [eexists; reflexivity | ].
    left; split; [reflexivity | eexists; reflexivity].
  - apply not_recognised_In in Hrec.
    rewrite (getKerasModel_unknown model_name stdout Hrec).
    split; [eexists; reflexivity | ].
    right; split; reflexivity.
Qed.

(** ** Exact matching of the name *)

(** C8: name matching is exact and case-sensitive: for every string that
    differs in some character position from each of the five recognised
    names, getKerasModel returns None rather than a model. *)
Theorem getKerasModel_exact_match (model_name : string) (stdout : string) :
  (forall n, In n model_names ->
             exists i, String.get i model_name <> String.get i n) ->
  fst (getKerasModel model_name stdout) = Return None.
Proof.
  intros Hdiff.
  rewrite getKerasModel_unknown; [reflexivity | ].
  intros Hin.
  destruct (Hdiff model_name Hin) as [i Hi].
  apply Hi; reflexivity.
Qed.

Lemma getKerasModel_exact_match_witness :
  (forall n, In n model_names ->
             exists i, String.get i "lucascnn" <> String.get i n) /\
  fst (getKerasModel "lucascnn" "") = Return None.
Proof.
  assert (H : forall n, In n model_names ->
                        exists i, String.get i "lucascnn" <> String.get i n).
  { intros n Hn; exists 0%nat; simpl in Hn.
    destruct Hn as [<- | [<- | [<- | [<- | [<- | []]]]]]; simpl; discriminate. }
  split; [exact H | ].
  exact (getKerasModel_exact_match "lucascnn" "" H).
Defined.

(** Wrong case and trailing white space are not matched. *)
Example getKerasModel_lower_case :
  fst (getKerasModel "lucascnn" "") = Return None.
Proof. reflexivity. Qed.

Example getKerasModel_upper_case :
  fst (getKerasModel "HUETAL" "") = Return None.
Proof. reflexivity. Qed.

Example getKerasModel_trailing_space :
  getKerasModel "LucasCNN " ""
  = (Return None,
     ("Error: Model LucasCNN  not implemented." ++ Py.newline)%string).
Proof. reflexivity. Qed.

(** Two different strings differ at some position (a missing character
    counts), so the condition above is no more than being none of the
    names. *)
Lemma differ_at_some_index (s1 : string) :
  forall s2, s1 <> s2 -> exists i, String.get i s1 <> String.get i s2.
Proof.
  induction s1 as [ | c1 s1' IH]; intros [ | c2 s2'] Hne.
  - contradiction.
  - exists 0%nat; simpl; discriminate.
  - exists 0%nat; simpl; discriminate.
  - destruct (ascii_dec c1 c2) as [-> | Hc].
    + destruct (IH s2') as [i Hi]; [congruence | ].
      exists (S i); exact Hi.
    + exists 0%nat; simpl; congruence.
Qed.

(** ** Further properties of the factory *)

Lemma getKerasModel_recognised_graphs (stdout : string) :
  getKerasModel "LucasCNN" stdout
  = (Return (Some (model_over LucasCNN_graph)), stdout) /\
  getKerasModel "HuEtAl" stdout
  = (Return (Some (model_over HuEtAl_graph)), stdout) /\
  getKerasModel "LiuEtAl" stdout
  = (Return (Some (model_over LiuEtAl_graph)), stdout) /\
  getKerasModel "LucasResNet" stdout
  = (Return (Some (model_over LucasResNet_graph)), stdout) /\
  getKerasModel "LucasCoordConv" stdout
  = (Return (Some (model_over LucasCoordConv_graph)), stdout).
Proof.
  unfold getKerasModel;
    cbn -[LucasCNN HuEtAl LiuEtAl LucasResNet LucasCoordConv].
  rewrite LucasCNN_builds, HuEtAl_builds, LiuEtAl_builds, LucasResNet_builds,
          LucasCoordConv_builds.
  repeat split; reflexivity.
Qed.

Lemma getKerasModel_not_recognised (model_name : string) (stdout : string) :
  recognised model_name = false ->
  getKerasModel model_name stdout
  = (Return None, Py.print (not_implemented_message model_name) stdout).
Proof.
  intros H; apply getKerasModel_unknown, not_recognised_In, H.
Qed.

(** A returned model comes from a recognised name. *)
Lemma returned_model_recognised (model_name stdout : string) (m : KerasModel) :
  fst (getKerasModel model_name stdout) = Return (Some m) ->
  In model_name model_names.
Proof.
  intros H.
  destruct (recognised model_name) eqn:Hrec.
  - apply recognised_In; exact Hrec.
  - rewrite (getKerasModel_not_recognised _ _ Hrec) in H; discriminate H.
Qed.

(** Case analysis over the five names, replacing the call by its graph. *)
Ltac each_name Hin H :=
  unfold model_names in Hin; simpl in Hin;
  destruct Hin as [<- | [<- | [<- | [<- | [<- | []]]]]];
  [ rewrite (proj1 (getKerasModel_recognised_graphs _)) in H
  | rewrite (proj1 (proj2 (getKerasModel_recognised_graphs _))) in H
  | rewrite (proj1 (proj2 (proj2 (getKerasModel_recognised_graphs _)))) in H
  | rewrite (proj1 (proj2 (proj2 (proj2
               (getKerasModel_recognised_graphs _))))) in H
  | rewrite (proj2 (proj2 (proj2 (proj2
               (getKerasModel_recognised_graphs _))))) in H ];
  simpl fst in H.

(** X1: the five architectures are pairwise different: two calls of
    getKerasModel hand back the same model only for the same name. *)
Theorem getKerasModel_names_give_distinct_models
    (n1 n2 stdout1 stdout2 : string) (m : KerasModel) :
  fst (getKerasModel n1 stdout1) = Return (Some m) ->
  fst (getKerasModel n2 stdout2) = Return (Some m) ->
  n1 = n2.
Proof.
  intros H1 H2.
  pose proof (returned_model_recognised _ _ _ H1) as Hin1.
  pose proof (returned_model_recognised _ _ _ H2) as Hin2.
  each_name Hin1 H1; injection H1 as <-;
    each_name Hin2 H2; first [reflexivity | cbv in H2; discriminate H2].
Qed.

Lemma getKerasModel_names_give_distinct_models_witness :
  fst (getKerasModel "LiuEtAl" "") = Return (Some (model_over LiuEtAl_graph)) /\
  fst (getKerasModel "LiuEtAl" "log") = Return (Some (model_over LiuEtAl_graph)) /\
  "LiuEtAl" = "LiuEtAl".
Proof.
  assert (H1 : fst (getKerasModel "LiuEtAl" "")
               = Return (Some (model_over LiuEtAl_graph)))
    by (vm_compute; reflexivity).
  assert (H2 : fst (getKerasModel "LiuEtAl" "log")
               = Return (Some (model_over LiuEtAl_graph)))
    by (vm_compute; reflexivity).
  split; [exact H1 | split; [exact H2 | ]].
  exact (getKerasModel_names_give_distinct_models
           "LiuEtAl" "LiuEtAl" "" "log" (model_over LiuEtAl_graph) H1 H2).
Defined.

(** *** Standard output *)

Lemma string_length_append (s1 s2 : string) :
  String.length (s1 ++ s2)%string = (String.length s1 + String.length s2)%nat.
Proof.
  induction s1 as [ | c s1' IH]; simpl; [reflexivity | rewrite IH; reflexivity].
Qed.

Lemma append_cancel_l (s a b : string) :
  (s ++ a)%string = (s ++ b)%string -> a = b.
Proof.
  induction s as [ | c s' IH]; simpl; intros H.
  - exact H.
  - injection H as H; apply IH; exact H.
Qed.

Lemma append_cancel_r (t : string) :
  forall a b : string, (a ++ t)%string = (b ++ t)%string -> a = b.
Proof.
  induction a as [ | c a' IH]; intros [ | c' b'] H; simpl in H.
  - reflexivity.
  - apply (f_equal String.length) in H; simpl in H.
    rewrite string_length_append in H; lia.
  - apply (f_equal String.length) in H; simpl in H.
    rewrite string_length_append in H; lia.
  - injection H as -> H; f_equal; apply IH; exact H.
Qed.

Lemma print_grows (s stdout : string) : Py.print s stdout <> stdout.
Proof.
  unfold Py.print; intros H.
  apply (f_equal String.length) in H.
  rewrite !string_length_append in H; simpl in H; lia.
Qed.

(** X2: getKerasModel leaves standard output as it was exactly when it hands
    back a model, which is exactly when the name is recognised; otherwise it
    appends one line after what was there and changes nothing before it. *)
Theorem getKerasModel_prints_iff_no_model (model_name stdout : string) :
  snd (getKerasModel model_name stdout)
  = (if recognised model_name then stdout
     else (stdout ++ not_implemented_message model_name ++ Py.newline)%string)
  /\
  (snd (getKerasModel model_name stdout) =? stdout)%string
  = recognised model_name /\
  returned_model (fst (getKerasModel model_name stdout))
  = recognised model_name.
Proof.
  destruct (recognised model_name) eqn:Hrec.
  - apply recognised_In in Hrec.
    destruct (getKerasModel_known model_name stdout Hrec) as (g & _ & ->).
    simpl; rewrite String.eqb_refl; repeat split; reflexivity.
  - rewrite (getKerasModel_not_recognised _ _ Hrec); simpl.
    repeat split; try reflexivity.
    apply String.eqb_neq, print_grows.
Qed.

(** X3: the printed line tells which name was asked for: when a call with an
    unrecognised name and another call start from the same standard output
    and leave the same standard output, the two names are the same. *)
Theorem printed_line_identifies_name (n1 n2 stdout : string) :
  recognised n1 = false ->
  snd (getKerasModel n1 stdout) = snd (getKerasModel n2 stdout) ->
  n1 = n2.
Proof.
  intros Hrec1 Hout.
  rewrite (getKerasModel_not_recognised _ _ Hrec1) in Hout; simpl in Hout.
  destruct (recognised n2) eqn:Hrec2.
  - apply recognised_In in Hrec2.
    destruct (getKerasModel_known n2 stdout Hrec2) as (g & _ & Hg).
    rewrite Hg in Hout; simpl in Hout.
    exfalso; exact (print_grows _ _ Hout).
  - rewrite (getKerasModel_not_recognised _ _ Hrec2) in Hout; simpl in Hout.
    unfold Py.print, not_implemented_message in Hout.
    apply append_cancel_l, append_cancel_r in Hout.
    apply (append_cancel_l "Error: Model ") in Hout.
    apply append_cancel_r in Hout; exact Hout.
Qed.

Lemma printed_line_identifies_name_witness :
  recognised "ResNet50" = false /\
  snd (getKerasModel "ResNet50" "") = snd (getKerasModel "ResNet50" "") /\
  "ResNet50" = "ResNet50".
Proof.
  assert (H1 : recognised "ResNet50" = false) by reflexivity.
  assert (H2 : snd (getKerasModel "ResNet50" "")
               = snd (getKerasModel "ResNet50" "")) by reflexivity.
  split; [exact H1 | split; [exact H2 | ]].
  exact (printed_line_identifies_name "ResNet50" "ResNet50" "" H1 H2).
Defined.

(** ** Every layer lies between the input and the output *)

Section Connectivity.

Lemma indexed_from (g : graph) :
  forall (s k : nat) (n : node),
    nth_error g k = Some n ->
    In ((s + k)%nat, n) (combine (seq s (List.length g)) g).
Proof.
  induction g as [ | n0 g' IH]; intros s [ | k] n H; simpl in H;
    try discriminate H.
  - injection H as ->; left; f_equal; lia.
  - right; simpl.
    replace (s + S k)%nat with (S s + k)%nat by lia.
    apply IH; exact H.
Qed.

Lemma indexed_In (g : graph) (k : nat) (n : node) :
  nth_error g k = Some n -> In (k, n) (indexed g).
Proof.
  intros H; exact (indexed_from g 0 k n H).
Qed.

Lemma path_in_graph (g : graph) (i k : nat) :
  path g i k -> (k < List.length g)%nat.
Proof.
  intros [j Hj | i' j k' n _ Hn _]; [exact Hj | ].
  apply nth_error_Some; rewrite Hn; discriminate.
Qed.

(** An edge in front of a path. *)
Lemma path_cons (g : graph) (i j k : nat) (n : node) :
  (i < List.length g)%nat ->
  nth_error g j = Some n -> In i (inbound n) ->
  path g j k -> path g i k.
Proof.
  intros Hi Hn Hin Hp.
  induction Hp as [j Hj | j j' k n' _ IH Hn' Hin'].
  - apply (path_step g i i j n); [apply path_refl; exact Hi | exact Hn | exact Hin].
  - apply (path_step g i j' k n'); [apply IH; assumption | exact Hn' | exact Hin'].
Qed.

Variable m : KerasModel.
Hypothesis ordered : topologically_ordered (layers m) = true.

Lemma inbound_earlier (k j : nat) (n : node) :
  nth_error (layers m) k = Some n -> In j (inbound n) -> (j < k)%nat.
Proof.
  intros Hn Hj.
  unfold topologically_ordered in ordered.
  rewrite forallb_forall in ordered.
  specialize (ordered _ (indexed_In _ _ _ Hn)); simpl in ordered.
  rewrite forallb_forall in ordered.
  apply Nat.ltb_lt, ordered, Hj.
Qed.

Lemma from_source :
  single_source m = true ->
  forall k, (k < List.length (layers m))%nat ->
            path (layers m) (producer (inputs m)) k.
Proof.
  intros Hsrc k.
  induction k as [k IH] using (well_founded_induction lt_wf); intros Hk.
  destruct (nth_error (layers m) k) as [n | ] eqn:Hn;
    [ | apply nth_error_None in Hn; lia].
  unfold single_source in Hsrc; rewrite forallb_forall in Hsrc.
  specialize (Hsrc _ (indexed_In _ _ _ Hn)); simpl in Hsrc.
  apply Bool.eqb_prop in Hsrc; unfold no_inbound in Hsrc.
  destruct (inbound n) as [ | j rest] eqn:Hin.
  - symmetry in Hsrc; apply Nat.eqb_eq in Hsrc; subst k.
    apply path_refl; exact Hk.
  - assert (Hj : (j < k)%nat)
      by (apply (inbound_earlier k j n Hn); rewrite Hin; left; reflexivity).
    apply (path_step _ _ j k n); [ | exact Hn | rewrite Hin; left; reflexivity].
    apply IH; [exact Hj | lia].
Qed.

Lemma to_sink :
  single_sink m = true ->
  forall d k, (List.length (layers m) - k <= d)%nat ->
              (k < List.length (layers m))%nat ->
              path (layers m) k (producer (outputs m)).
Proof.
  intros Hsink d.
  induction d as [ | d IH]; intros k Hd Hk; [lia | ].
  destruct (nth_error (layers m) k) as [n | ] eqn:Hn;
    [ | apply nth_error_None in Hn; lia].
  unfold single_sink in Hsink; rewrite forallb_forall in Hsink.
  pose proof (Hsink _ (indexed_In _ _ _ Hn)) as Hk_sink; simpl in Hk_sink.
  apply Bool.eqb_prop in Hk_sink; unfold no_consumer in Hk_sink.
  destruct (consumers (layers m) k) as [ | l rest] eqn:Hcons.
  - symmetry in Hk_sink; apply Nat.eqb_eq in Hk_sink; subst k.
    apply path_refl; exact Hk.
  - assert (Hl : In l (consumers (layers m) k))
      by (rewrite Hcons; left; reflexivity).
    unfold consumers in Hl.
    apply in_map_iff in Hl; destruct Hl as (n' & _ & Hn').
    apply filter_In in Hn'; destruct Hn' as [Hn'g Hex].
    apply existsb_exists in Hex; destruct Hex as (j & Hj & Hjk).
    apply Nat.eqb_eq in Hjk; subst j.
    apply In_nth_error in Hn'g; destruct Hn'g as [k' Hk'].
    pose proof (inbound_earlier k' k n' Hk' Hj) as Hlt.
    assert (Hk'len : (k' < List.length (layers m))%nat)
      by (apply nth_error_Some; rewrite Hk'; discriminate).
    apply (path_cons _ k k' _ n' Hk Hk' Hj).
    apply IH; [lia | exact Hk'len].
Qed.

Lemma connected_paths :
  single_source m = true -> single_sink m = true ->
  forall k, (k < List.length (layers m))%nat ->
            path (layers m) (producer (inputs m)) k /\
            path (layers m) k (producer (outputs m)).
Proof.
  intros Hsrc Hsink k Hk; split.
  - apply from_source; assumption.
  - apply (to_sink Hsink (List.length (layers m))); [lia | exact Hk].
Qed.

End Connectivity.

(** X4: in every model getKerasModel hands back, each layer call takes
    tensors of earlier calls only, the input layer is the only call on no
    tensor and the output layer the only one whose tensor is not used, so
    every layer lies on a path from the model input to the model output. *)
Theorem getKerasModel_graph_connected
    (model_name stdout : string) (m : KerasModel) :
  fst (getKerasModel model_name stdout) = Return (Some m) ->
  topologically_ordered (layers m) = true /\
  single_source m = true /\
  single_sink m = true /\
  forall k, (k < List.length (layers m))%nat ->
            path (layers m) (producer (inputs m)) k /\
            path (layers m) k (producer (outputs m)).
Proof.
  intros H.
  assert (Hc : connected m = true).
  { pose proof (returned_model_recognised _ _ _ H) as Hin.
    each_name Hin H; injection H as <-; vm_compute; reflexivity. }
  unfold connected in Hc.
  apply andb_prop in Hc; destruct Hc as [Hc Hsink].
  apply andb_prop in Hc; destruct Hc as [Hord Hsrc].
  repeat split; try assumption; apply connected_paths; assumption.
Qed.

Lemma getKerasModel_graph_connected_witness :
  fst (getKerasModel "LucasResNet" "")
  = Return (Some (model_over LucasResNet_graph)) /\
  topologically_ordered LucasResNet_graph = true /\
  single_source (model_over LucasResNet_graph) = true /\
  single_sink (model_over LucasResNet_graph) = true /\
  forall k, (k < List.length LucasResNet_graph)%nat ->
            path LucasResNet_graph 0 k /\ path LucasResNet_graph k 14.
Proof.
  assert (H : fst (getKerasModel "LucasResNet" "")
              = Return (Some (model_over LucasResNet_graph)))
    by (vm_compute; reflexivity).
  split; [exact H | ].
  exact (getKerasModel_graph_connected "LucasResNet" ""
           (model_over LucasResNet_graph) H).
Defined.

(** ** Where the reshape puts a time step *)

Section ReshapeIndex.

Variable A : Type.

Lemma rows_of_nth (steps channels : nat) :
  forall (flat : list A) (t : nat) (d : A),
    List.length flat = (steps * channels)%nat ->
    (t < steps * channels)%nat ->
    nth (t mod channels) (nth (t / channels) (rows_of steps channels flat) []) d
    = nth t flat d.
Proof.
  induction steps as [ | steps' IH]; intros flat t d Hlen Ht; [simpl in Ht; lia | ].
  assert (Hc : channels <> 0%nat) by (intros ->; lia).
  simpl rows_of.
  destruct (Nat.lt_ge_cases t channels) as [Hlt | Hge].
  - rewrite Nat.div_small, Nat.mod_small by exact Hlt; simpl.
    rewrite nth_firstn.
    apply Nat.ltb_lt in Hlt; rewrite Hlt; reflexivity.
  - replace t with ((t - channels) + 1 * channels)%nat at 1 2 by lia.
    rewrite Nat.div_add, Nat.Div0.mod_add by exact Hc.
    rewrite Nat.add_1_r; simpl nth at 2.
    rewrite IH.
    + rewrite nth_skipn; f_equal; lia.
    + rewrite length_skipn, Hlen; simpl; lia.
    + simpl in Ht; lia.
Qed.

Lemma concat_single_channel (x : list (list A)) :
  forall (steps t : nat) (d : A),
    has_shape steps 1 x ->
    nth t (List.concat x) d = nth 0 (nth t x []) d.
Proof.
  induction x as [ | row rest IH]; intros steps t d [Hn Hrows].
  - destruct t; reflexivity.
  - inversion Hrows as [ | ? ? Hrow Hrest]; subst.
    destruct row as [ | a [ | b row']]; try discriminate Hrow.
    destruct t as [ | t']; simpl; [reflexivity | ].
    apply (IH (List.length rest)); split; [reflexivity | exact Hrest].
Qed.

End ReshapeIndex.

(** X5: the reshape of LucasResNet puts time step t of the raw input into
    row t div 16, column t mod 16 of the reshaped tensor, so the row that is
    concatenated with step i of the convolutional output holds the time steps
    16 i to 16 i + 15. *)
Theorem LucasResNet_reshape_position
    (A : Type) (x : list (list A)) (t : nat) (d : A) :
  has_shape 256 1 x ->
  (t < 256)%nat ->
  exists m rows cols,
    LucasResNet = Return m /\
    layer_at m 9 = Some (Reshape [Z.of_nat rows; Z.of_nat cols]) /\
    nth (t mod cols) (nth (t / cols) (reshape_data rows cols x) []) d
    = nth 0 (nth t x []) d.
Proof.
  intros Hx Ht.
  exists (model_over LucasResNet_graph), 16%nat, 16%nat.
  split; [apply LucasResNet_builds | ].
  split; [reflexivity | ].
  unfold reshape_data.
  rewrite rows_of_nth.
  - apply (concat_single_channel A x 256); exact Hx.
  - rewrite (has_shape_length_concat A 256 1 x Hx); reflexivity.
  - exact Ht.
Qed.

Lemma LucasResNet_reshape_position_witness :
  has_shape 256 1 (map (fun i => [Z.of_nat i]) (seq 0 256)) /\
  (37 < 256)%nat /\
  exists m rows cols,
    LucasResNet = Return m /\
    layer_at m 9 = Some (Reshape [Z.of_nat rows; Z.of_nat cols]) /\
    nth (37 mod cols)
        (nth (37 / cols)
             (reshape_data rows cols (map (fun i => [Z.of_nat i]) (seq 0 256)))
             [])
        0
    = nth 0 (nth 37 (map (fun i => [Z.of_nat i]) (seq 0 256)) []) 0.
Proof.
  assert (H : has_shape 256 1 (map (fun i => [Z.of_nat i]) (seq 0 256))).
  { split.
    - rewrite length_map, length_seq; reflexivity.
    - apply Forall_forall; intros row Hrow.
      apply in_map_iff in Hrow; destruct Hrow as (i & <- & _); reflexivity. }
  assert (Ht : (37 < 256)%nat) by lia.
  split; [exact H | split; [exact Ht | ]].
  exact (LucasResNet_reshape_position Z _ 37 0 H Ht).
Defined.

(** ** The float quotient in the pooling size of HuEtAl *)

Lemma In_Z_range (count : nat) :
  forall start a : Z,
    start <= a < start + Z.of_nat count -> In a (Z_range start count).
Proof.
  induction count as [ | count' IH]; intros start a Ha; [lia | ].
  simpl; destruct (Z.eq_dec start a) as [-> | Hne];
    [left; reflexivity | right; apply IH; lia].
Qed.

(** [int(a / 35)] and [a // 35] agree on a range of numerators, checked one
    by one. *)
Lemma int_truediv_35_checked :
  forallb (fun a =>
             match Py.truediv a 35 with
             | Return quotient =>
                 match Py.int_of_float quotient with
                 | Return pool_size => pool_size =? a / 35
                 | Raise _ => false
                 end
             | Raise _ => false
             end) (Z_range 0 (128 * 128)) = true.
Proof. vm_compute. reflexivity. Qed.

(** X6: the pooling size of HuEtAl is written int(a / 35), a float division
    followed by truncation; for every numerator a from 0 to 16383 this
    raises nothing and gives the integer quotient a // 35, so the float
    rounding never moves the result across an integer. *)
Theorem int_truediv_35_is_floor (a : Z) :
  0 <= a < 16384 ->
  exists quotient,
    Py.truediv a 35 = Return quotient /\
    Py.int_of_float quotient = Return (a / 35).
Proof.
  intros Ha.
  pose proof int_truediv_35_checked as Hall.
  rewrite forallb_forall in Hall.
  assert (Hin : In a (Z_range 0 (128 * 128))).
  { apply In_Z_range; change (Z.of_nat (128 * 128)) with 16384; lia. }
  specialize (Hall _ Hin).
  destruct (Py.truediv a 35) as [quotient | e]; [ | discriminate Hall].
  exists quotient; split; [reflexivity | ].
  destruct (Py.int_of_float quotient) as [pool_size | e]; [ | discriminate Hall].
  apply Z.eqb_eq in Hall; rewrite Hall; reflexivity.
Qed.

Lemma int_truediv_35_is_floor_witness :
  0 <= 229 < 16384 /\
  exists quotient,
    Py.truediv 229 35 = Return quotient /\
    Py.int_of_float quotient = Return (229 / 35).
Proof.
  assert (H : 0 <= 229 < 16384) by lia.
  split; [exact H | ].
  exact (int_truediv_35_is_floor 229 H).
Defined.
